(** * FinSight: a shallow embedding of the Streamlit prototype [finsight.py]

    The script is re-executed from its first line on every interaction of the
    viewer.  One execution is modelled as a computation that reads the widget
    values delivered by the front end, threads the session state (a Python
    dict with string keys) and emits what it renders, in order.  A raised
    Python exception stops the execution and keeps the effects made so far. *)

From stdpp Require Import base strings gmap list.
From Stdlib Require Import PrimFloat.

Set Warnings "-inexact-float".
Set Default Proof Using "Type".
Open Scope string_scope.

(** ** Python exceptions and results *)

Inductive exn : Type :=
| AttributeError (attr : string)         (* st.session_state.<attr>, key absent *)
| KeyError (key : string)                (* d[key], key absent *)
| IndexError                             (* l[i], i out of range *)
| ValueError (msg : string)              (* matplotlib: shapes do not agree *)
| StreamlitAPIException (msg : string)
| RerunException.                        (* raised by st.rerun() *)

Inductive outcome (A : Type) : Type :=
| Ok (a : A)
| Raise (e : exn).
Arguments Ok {A} a.
Arguments Raise {A} e.

Definition outcome_bind {A B} (o : outcome A) (f : A → outcome B) : outcome B :=
  match o with
  | Ok a => f a
  | Raise e => Raise e
  end.

(** ** Figures (matplotlib)

    A figure is kept as its size and the list of drawing calls made on its
    axes, in call order. *)

Inductive artist : Type :=
| text_artist (x y : float) (s : string) (fontsize : nat) (ha va color fontweight : string)
| bar_artist (x : string) (height : float) (color : string)
| xlim_artist (lo hi : float)
| ylim_artist (lo hi : float)
| axis_artist (arg : string)
| ylabel_artist (s : string)
| title_artist (s : string)
| axhline_artist (y : float) (color linestyle : string) (alpha : float)
| spine_artist (which : string) (visible : bool)
| axisbelow_artist (b : bool)
| grid_artist (axis : string) (alpha : float)
| tight_layout_artist.

Record Figure : Type := mkFigure {
  figsize : float * float;
  drawn : list artist
}.

(* plt.subplots(figsize=...) *)
Definition subplots (size : float * float) : Figure := mkFigure size [].

Definition draw (a : artist) (fig : Figure) : Figure :=
  mkFigure (figsize fig) (drawn fig ++ [a]).

(* ax.bar(x, height, color=colors): x and height must have one length
   (matplotlib raises ValueError otherwise); the colour list is cycled. *)
Definition ax_bar (x : list string) (height : list float) (color : list string)
    (fig : Figure) : outcome Figure :=
  if decide (length x = length height) then
    Ok (mkFigure (figsize fig)
          (drawn fig ++
           imap (λ i '(xi, hi),
                   bar_artist xi hi (nth (i mod length color) color "none"))
                (zip x height)))
  else Raise (ValueError "shape mismatch: objects cannot be broadcast to a single shape").

(* fig.savefig(buf, format=..., bbox_inches=..., transparent=...); Image.open(buf) *)
Record Image : Type := mkImage {
  image_of : Figure;
  image_format : string;
  bbox_inches : string;
  transparent : bool
}.

(** ** What a run renders *)

(* The literal blocks handed to st.markdown, named by what they show.  The
   two blocks built from data carry that data. *)
Inductive markup : Type :=
| style_sheet                 (* the <style> block *)
| rule                        (* "---" *)
| about_heading               (* "### About FinSight" *)
| about_text
| copyright_line
| home_header                 (* h1 main-header, Home *)
| welcome_card
| how_it_works_header
| feature_upload_files
| feature_get_ratios
| feature_visualize_insights
| upload_header
| drop_zone                   (* the dashed "Drag and drop" box *)
| analysis_header
| context_mode_header
| key_ratios_header
| category_heading (category : string)
| ratio_card (status_class ratio_name : string) (ratio_value : float)
             (ratio_description : string)
| visualizations_header
| insights_header
| insights_card
| help_header
| faq_header
| faq_upload_steps
| faq_ratio_list
| contact_header
| contact_card
| footer_block.

Record UploadedFile : Type := mkUploadedFile {
  name : string;
  getvalue : list Byte.byte
}.

Inductive element : Type :=
| el_markdown (body : markup)
| el_image (img : Image) (width : nat)
| el_radio (label : string) (options : list string) (key value : string)
| el_file_uploader (label : string) (type : list string) (help : string)
| el_success (body : string)
| el_spinner (text : string)
| el_info (body : string)
| el_button (label : string)
| el_selectbox (label : string) (options : list string) (help value : string)
| el_columns (n : nat)
| el_pyplot (fig : Figure)
| el_expander (label : string).

Inductive container : Type :=
| main_area
| sidebar
| column (i : nat)
| expander (label : string).

Inductive event : Type :=
| page_config (page_title page_icon layout initial_sidebar_state : string)
| render (c : container) (e : element)
| sleep (seconds : nat).

(** ** The script monad *)

(* Widget values the front end delivers with a run. *)
Record widgets : Type := mkWidgets {
  nav : option string;                    (* the radio with key "nav" *)
  uploaded_file : option UploadedFile;    (* the file uploader *)
  view_analysis : bool;                   (* "View Analysis" pressed *)
  context_mode : option string            (* the context-mode selectbox *)
}.

Record reply (A : Type) : Type := Reply {
  result : outcome A;
  state : gmap string string;             (* st.session_state afterwards *)
  emitted : list event
}.
Arguments Reply {A} result state emitted.
Arguments result {A} r.
Arguments state {A} r.
Arguments emitted {A} r.

Definition M (A : Type) : Type := widgets → gmap string string → reply A.

Definition M_ret {A} (a : A) : M A := λ _ s, Reply (Ok a) s [].

Definition M_bind {A B} (m : M A) (f : A → M B) : M B := λ fe s,
  let r := m fe s in
  match result r with
  | Ok a =>
      let r' := f a fe (state r) in
      Reply (result r') (state r') (emitted r ++ emitted r')
  | Raise e => Reply (Raise e) (state r) (emitted r)
  end.

Notation "x <- m ;; k" := (M_bind m (λ x, k))
  (at level 100, m at next level, k at level 200, right associativity,
   format "'[v' x  <-  m  ;; '/' k ']'").
Notation "m ;;; k" := (M_bind m (λ _, k))
  (at level 100, k at level 200, right associativity,
   format "'[v' m  ;;; '/' k ']'").

Definition raise {A} (e : exn) : M A := λ _ s, Reply (Raise e) s [].
Definition lift {A} (o : outcome A) : M A := λ _ s, Reply o s [].
Definition ask : M widgets := λ fe s, Reply (Ok fe) s [].
Definition emit (e : event) : M unit := λ _ s, Reply (Ok ()) s [e].

(* key in st.session_state *)
Definition session_has (key : string) : M bool := λ _ s,
  Reply (Ok (bool_decide (is_Some (s !! key)))) s [].
(* st.session_state.<key> *)
Definition session_get (key : string) : M string := λ _ s,
  match s !! key with
  | Some v => Reply (Ok v) s []
  | None => Reply (Raise (AttributeError key)) s []
  end.
(* st.session_state.<key> = v *)
Definition session_set (key v : string) : M unit := λ _ s,
  Reply (Ok ()) (<[key := v]> s) [].

(* with <container>: body *)
Definition place (c : container) (e : event) : event :=
  match e with
  | render _ el => render c el
  | _ => e
  end.
Definition within {A} (c : container) (body : M A) : M A := λ fe s,
  let r := body fe s in
  Reply (result r) (state r) (place c <$> emitted r).

(* for x in xs: body(x) *)
Fixpoint for_each {A} (xs : list A) (body : A → M unit) : M unit :=
  match xs with
  | [] => M_ret ()
  | x :: xs' => body x ;;; for_each xs' body
  end.

(** ** The Streamlit calls the script makes *)

Definition st_markdown (body : markup) : M unit :=
  emit (render main_area (el_markdown body)).
Definition st_image (img : Image) (width : nat) : M unit :=
  emit (render main_area (el_image img width)).
Definition st_success (body : string) : M unit :=
  emit (render main_area (el_success body)).
Definition st_info (body : string) : M unit :=
  emit (render main_area (el_info body)).
Definition st_pyplot (fig : Figure) : M unit :=
  emit (render main_area (el_pyplot fig)).

(* st.radio(..., key=key): the viewer's choice, the first option before any
   choice; a widget with a key keeps its value in st.session_state under
   that key *)
Definition st_radio (label : string) (options : list string) (key : string) :
    M string :=
  fe <- ask ;;
  let value := default (hd "" options) (nav fe) in
  session_set key value ;;;
  emit (render main_area (el_radio label options key value)) ;;;
  M_ret value.

(* st.selectbox: the viewer's choice, the first option before any choice *)
Definition st_selectbox (label : string) (options : list string) (help : string) :
    M string :=
  fe <- ask ;;
  let value := default (hd "" options) (context_mode fe) in
  emit (render main_area (el_selectbox label options help value)) ;;;
  M_ret value.

Definition st_file_uploader (label : string) (type : list string)
    (help : string) : M (option UploadedFile) :=
  fe <- ask ;;
  emit (render main_area (el_file_uploader label type help)) ;;;
  M_ret (uploaded_file fe).

Definition st_button (label : string) : M bool :=
  fe <- ask ;;
  emit (render main_area (el_button label)) ;;;
  M_ret (view_analysis fe).

(* st.columns(n): n containers, n >= 1 *)
Definition st_columns (n : nat) : M (list container) :=
  if decide (n = 0) then
    raise (StreamlitAPIException "The number of columns must be a positive integer")
  else
    emit (render main_area (el_columns n)) ;;;
    M_ret (column <$> seq 0 n).

(* with st.spinner(text): body *)
Definition st_spinner {A} (text : string) (body : M A) : M A :=
  emit (render main_area (el_spinner text)) ;;;
  body.

(* with st.expander(label): body *)
Definition st_expander {A} (label : string) (body : M A) : M A :=
  emit (render main_area (el_expander label)) ;;;
  within (expander label) body.

Definition st_rerun : M unit := raise RerunException.

Definition time_sleep (seconds : nat) : M unit := emit (sleep seconds).

(* cols[i] *)
Definition index {A} (l : list A) (i : nat) : M A :=
  match l !! i with
  | Some x => M_ret x
  | None => raise IndexError
  end.

(** ** finsight.py *)

(* st.set_page_config(...) *)
Definition set_page_config : M unit :=
  emit (page_config "FinSight - Financial Analysis Platform" "📊" "wide" "expanded").

(* if 'page' not in st.session_state: st.session_state.page = "Home" *)
Definition init_session_state : M unit :=
  present <- session_has "page" ;;
  if negb present then session_set "page" "Home" else M_ret ().

Definition create_logo : Image :=
  let fig := subplots (2, 0.8)%float in
  let fig := draw (text_artist 0.5 0.5 "FinSight" 20 "center" "center" "#1a3a5f" "bold") fig in
  let fig := draw (xlim_artist 0 1) fig in
  let fig := draw (ylim_artist 0 1) fig in
  let fig := draw (axis_artist "off") fig in
  mkImage fig "png" "tight" true.

Definition nav_options : list string := ["Home"; "Analysis"; "Help"].

(* with st.sidebar: ... *)
Definition sidebar_navigation : M unit :=
  within sidebar (
    st_image create_logo 150 ;;;
    st_markdown rule ;;;
    page <- st_radio "Navigation" nav_options "nav" ;;
    session_set "page" page ;;;
    st_markdown rule ;;;
    st_markdown about_heading ;;;
    st_markdown about_text ;;;
    st_markdown rule ;;;
    st_markdown copyright_line).

Record ratio_data : Type := mkRatio {
  value : float;
  status : string;
  description : string
}.

(* dicts keep insertion order: association lists *)
Definition get_mock_ratios : M (list (string * list (string * ratio_data))) :=
  M_ret
    [ ("Liquidity Ratios",
       [ ("Current Ratio",
          mkRatio 1.8 "healthy"
            "Measures the company's ability to pay short-term obligations.");
         ("Quick Ratio",
          mkRatio 1.2 "healthy"
            "A more stringent measure of liquidity, excluding inventory.");
         ("Cash Ratio",
          mkRatio 0.5 "warning"
            "Measures a company's ability to cover short-term liabilities with cash.") ]);
      ("Profitability Ratios",
       [ ("Gross Margin",
          mkRatio 35.0 "healthy"
            "Percentage of revenue retained after direct costs.");
         ("Net Profit Margin",
          mkRatio 8.5 "healthy"
            "Percentage of revenue that is net income.");
         ("Return on Equity (ROE)",
          mkRatio 15.2 "healthy"
            "Measures profitability relative to shareholders' equity.") ]) ].

Definition create_mock_bar_chart : outcome Figure :=
  let fig := subplots (8, 4)%float in
  let categories := ["Current Ratio"; "Quick Ratio"; "Cash Ratio"] in
  let values := [1.8; 1.2; 0.5]%float in
  let colors := ["#4CAF50"; "#4CAF50"; "#FF9800"] in
  outcome_bind (ax_bar categories values colors fig) (λ fig,
  let fig := draw (ylabel_artist "Ratio Value") fig in
  let fig := draw (title_artist "Key Financial Ratios") fig in
  let fig := draw (axhline_artist 1.0 "#f44336" "--" 0.7) fig in
  let fig := draw (spine_artist "top" false) fig in
  let fig := draw (spine_artist "right" false) fig in
  let fig := draw (axisbelow_artist true) fig in
  let fig := draw (grid_artist "y" 0.3) fig in
  let fig := draw tight_layout_artist fig in
  Ok fig).

Definition home_page : M unit :=
  st_markdown home_header ;;;
  st_markdown welcome_card ;;;
  st_markdown how_it_works_header ;;;
  cols <- st_columns 3 ;;
  col1 <- index cols 0 ;;
  col2 <- index cols 1 ;;
  col3 <- index cols 2 ;;
  within col1 (st_markdown feature_upload_files) ;;;
  within col2 (st_markdown feature_get_ratios) ;;;
  within col3 (st_markdown feature_visualize_insights) ;;;
  st_markdown upload_header ;;;
  uploaded <- st_file_uploader "Upload balance sheets or income statements"
                ["pdf"; "xlsx"; "csv"] "Supported formats: PDF, Excel, CSV" ;;
  match uploaded with
  | Some file =>
      st_success ("File Uploaded: " +:+ name file) ;;;
      st_spinner "Analyzing your financial document..." (time_sleep 2) ;;;
      st_info "Analysis complete! Navigate to the Analysis page to view results." ;;;
      pressed <- st_button "View Analysis" ;;
      if pressed then
        session_set "page" "Analysis" ;;;
        st_rerun
      else M_ret ()
  | None => st_markdown drop_zone
  end.

Definition context_options : list string := ["Investor"; "Board"; "Audit"].

Definition context_descriptions : gmap string string :=
  <["Investor" :=
      "Investor Mode: Emphasizes growth metrics and visualizations suitable for pitches."]>
  (<["Board" :=
      "Board Mode: Focuses on comprehensive performance indicators for board meetings."]>
  (<["Audit" :=
      "Audit Mode: Highlights compliance metrics and financial health indicators."]> ∅)).

(* d[key] *)
Definition getitem (d : gmap string string) (key : string) : M string :=
  match d !! key with
  | Some v => M_ret v
  | None => raise (KeyError key)
  end.

(* enumerate(xs) *)
Definition enumerate {A} (xs : list A) : list (nat * A) :=
  imap (λ i x, (i, x)) xs.

Definition analysis_page : M unit :=
  st_markdown analysis_header ;;;
  st_markdown context_mode_header ;;;
  mode <- st_selectbox "Choose a context mode for your analysis:" context_options
            "Different modes emphasize different aspects of the analysis" ;;
  text <- getitem context_descriptions mode ;;
  st_info text ;;;
  st_markdown key_ratios_header ;;;
  ratios <- get_mock_ratios ;;
  for_each ratios (λ '(category, category_ratios),
    st_markdown (category_heading category) ;;;
    cols <- st_columns (min (length category_ratios) 3) ;;
    for_each (enumerate category_ratios) (λ '(i, (ratio_name, data)),
      col <- index cols (i mod length cols) ;;
      within col (
        let status_class := "ratio-" +:+ status data in
        st_markdown
          (ratio_card status_class ratio_name (value data) (description data))))) ;;;
  st_markdown visualizations_header ;;;
  fig <- lift create_mock_bar_chart ;;
  st_pyplot fig ;;;
  st_markdown insights_header ;;;
  st_markdown insights_card.

Definition help_page : M unit :=
  st_markdown help_header ;;;
  st_markdown faq_header ;;;
  st_expander "How do I upload files?" (st_markdown faq_upload_steps) ;;;
  st_expander "What financial ratios are calculated?" (st_markdown faq_ratio_list) ;;;
  st_markdown contact_header ;;;
  st_markdown contact_card.

(* if st.session_state.page == "Home": ... elif ... elif ... *)
Definition main_dispatch : M unit :=
  page <- session_get "page" ;;
  if decide (page = "Home") then home_page
  else
    page <- session_get "page" ;;
    if decide (page = "Analysis") then analysis_page
    else
      page <- session_get "page" ;;
      if decide (page = "Help") then help_page
      else M_ret ().

Definition footer : M unit := st_markdown footer_block.

(* One execution of the file, top to bottom. *)
Definition script : M unit :=
  set_page_config ;;;
  st_markdown style_sheet ;;;
  init_session_state ;;;
  sidebar_navigation ;;;
  main_dispatch ;;;
  footer.

(** The navigation selector of the specification: [setPage] is the
    assignment to [st.session_state.page], [getPage] the read of it. *)
Definition setPage (x : string) : M unit := session_set "page" x.
Definition getPage : M string := session_get "page".

(** ** Observations on a trace *)

Definition bars (fig : Figure) : list (string * float * string) :=
  omap (λ a, match a with
             | bar_artist x h c => Some (x, h, c)
             | _ => None
             end) (drawn fig).

Definition infos (tr : list event) : list string :=
  omap (λ e, match e with
             | render _ (el_info body) => Some body
             | _ => None
             end) tr.

Definition default_widgets : widgets := mkWidgets None None false None.

Definition balance_sheet : UploadedFile :=
  mkUploadedFile "balance_sheet.csv" [].

(* The front end only ever delivers a choice a widget offers. *)
Definition offered (options : list string) (choice : option string) : bool :=
  match choice with
  | Some v => bool_decide (v ∈ options)
  | None => true
  end.

Definition valid_widgets (fe : widgets) : bool :=
  offered nav_options (nav fe) && offered context_options (context_mode fe).

(** Session states the script can be in: the state right after the session
    is initialised at process start, and the state any later execution
    leaves behind, whether it ran to its end or was stopped by [st.rerun()].
    The index counts the executions. *)
Inductive reachable : nat → gmap string string → Prop :=
| reach_start fe :
    reachable 0 (state (init_session_state fe ∅))
| reach_run n fe s :
    reachable n s →
    valid_widgets fe = true →
    reachable (S n) (state (script fe s)).

(** The threshold rule of the specification's chart renderer, in its words:
    a value below 1.0 takes the warning colour, any other the healthy one.
    The colours are those of the style sheet's [ratio-warning] and
    [ratio-healthy] classes. *)
Definition warning_color : string := "#FF9800".
Definition healthy_color : string := "#4CAF50".
Definition threshold_color (v : float) : string :=
  if (v <? 1.0)%float then warning_color else healthy_color.

(** What the Home view renders above the upload outcome. *)
Definition home_intro : list event :=
  [ render main_area (el_markdown home_header);
    render main_area (el_markdown welcome_card);
    render main_area (el_markdown how_it_works_header);
    render main_area (el_columns 3);
    render (column 0) (el_markdown feature_upload_files);
    render (column 1) (el_markdown feature_get_ratios);
    render (column 2) (el_markdown feature_visualize_insights);
    render main_area (el_markdown upload_header);
    render main_area
      (el_file_uploader "Upload balance sheets or income statements"
         ["pdf"; "xlsx"; "csv"] "Supported formats: PDF, Excel, CSV") ].

(** ** The parts of [analysis_page] and of the dispatch, by themselves *)

(* The body of the inner loop of [analysis_page]: one ratio card, placed in
   the column cols[i % len(cols)]. *)
Definition ratio_card_block (cols : list container)
    (entry : nat * (string * ratio_data)) : M unit :=
  let '(i, (ratio_name, data)) := entry in
  col <- index cols (i mod length cols) ;;
  within col (
    let status_class := "ratio-" +:+ status data in
    st_markdown
      (ratio_card status_class ratio_name (value data) (description data))).

(* The body of the outer loop of [analysis_page]: the heading of a category,
   its columns and its ratio cards. *)
Definition category_block (entry : string * list (string * ratio_data)) : M unit :=
  let '(category, category_ratios) := entry in
  st_markdown (category_heading category) ;;;
  cols <- st_columns (min (length category_ratios) 3) ;;
  for_each (enumerate category_ratios) (ratio_card_block cols).

(* The branch the if/elif chain of the dispatch takes on page p. *)
Definition view (p : string) : M unit :=
  if decide (p = "Home") then home_page
  else if decide (p = "Analysis") then analysis_page
  else if decide (p = "Help") then help_page
  else M_ret ().

(* The page the radio stands on. *)
Definition shown_page (fe : widgets) : string := default "Home" (nav fe).

(* The run reaches [st.rerun()]: Home is shown, a file is uploaded and
   "View Analysis" is pressed. *)
Definition rerun_requested (fe : widgets) : bool :=
  bool_decide (shown_page fe = "Home") &&
  bool_decide (is_Some (uploaded_file fe)) &&
  view_analysis fe.

(* What the run renders before the dispatch. *)
Definition preamble (fe : widgets) : list event :=
  [ page_config "FinSight - Financial Analysis Platform" "📊" "wide" "expanded";
    render main_area (el_markdown style_sheet) ] ++
  emitted (sidebar_navigation fe ∅).

(** ** More observations on a trace *)

(* The page headers rendered, by the name of their page. *)
Definition pages_shown (tr : list event) : list string :=
  omap (λ e, match e with
             | render _ (el_markdown home_header) => Some "Home"
             | render _ (el_markdown analysis_header) => Some "Analysis"
             | render _ (el_markdown help_header) => Some "Help"
             | _ => None
             end) tr.

(* The delays, in seconds. *)
Definition delays (tr : list event) : list nat :=
  omap (λ e, match e with
             | sleep seconds => Some seconds
             | _ => None
             end) tr.

(* The ratio cards, each with the container it is placed in. *)
Definition cards (tr : list event) : list (container * markup) :=
  omap (λ e, match e with
             | render c (el_markdown (ratio_card k n v d)) =>
                 Some (c, ratio_card k n v d)
             | _ => None
             end) tr.

(* The charts. *)
Definition charts (tr : list event) : list Figure :=
  omap (λ e, match e with
             | render _ (el_pyplot fig) => Some fig
             | _ => None
             end) tr.

(* The event a ratio card gives rise to, by its position i in its category
   of n ratios. *)
Definition card_event (n i : nat) (entry : string * ratio_data) : event :=
  render (column (i mod min n 3))
    (el_markdown
       (ratio_card ("ratio-" +:+ status entry.2) entry.1 (value entry.2)
          (description entry.2))).

(* What the outer loop of [analysis_page] renders for a category with at
   least one ratio. *)
Definition category_events (entry : string * list (string * ratio_data)) :
    list event :=
  render main_area (el_markdown (category_heading entry.1)) ::
  render main_area (el_columns (min (length entry.2) 3)) ::
  imap (card_event (length entry.2)) entry.2.

(* The border colours the style sheet gives the three ratio classes. *)
Definition class_color (status_class : string) : option string :=
  if decide (status_class = "ratio-healthy") then Some "#4CAF50"
  else if decide (status_class = "ratio-warning") then Some "#FF9800"
  else if decide (status_class = "ratio-danger") then Some "#f44336"
  else None.

(* A category of four ratios, one more than there are columns. *)
Definition four_ratios : list (string * ratio_data) :=
  [ ("A", mkRatio 1.0 "healthy" "a"); ("B", mkRatio 2.0 "warning" "b");
    ("C", mkRatio 3.0 "danger" "c"); ("D", mkRatio 4.0 "healthy" "d") ].

(* The viewer on Analysis, with a context mode the dictionary does not have. *)
Definition unknown_mode : widgets :=
  mkWidgets (Some "Analysis") None false (Some "Lender").

(** ** Scenarios *)

(* The viewer is on Home, has uploaded balance_sheet.csv and has not pressed
   anything. *)
Definition upload_only : widgets :=
  mkWidgets (Some "Home") (Some balance_sheet) false None.

(* The viewer on Analysis picks the context mode Audit. *)
Definition audit_selected : widgets :=
  mkWidgets (Some "Analysis") None false (Some "Audit").

(* The viewer on Home uploads a file and presses "View Analysis". *)
Definition upload_pressed : widgets :=
  mkWidgets (Some "Home") (Some balance_sheet) true None.

(** * Running the parts of the script *)

Section Runs.
Variable fe : widgets.
Variable s : gmap string string.

Lemma bind_ok {A B} (m : M A) (f : A → M B) a s' tr :
  m fe s = Reply (Ok a) s' tr →
  M_bind m f fe s =
    Reply (result (f a fe s')) (state (f a fe s')) (tr ++ emitted (f a fe s')).
Proof. intros H. unfold M_bind. rewrite H. reflexivity. Qed.

Lemma bind_raise {A B} (m : M A) (f : A → M B) e s' tr :
  m fe s = Reply (Raise e) s' tr →
  M_bind m f fe s = Reply (Raise e) s' tr.
Proof. intros H. unfold M_bind. rewrite H. reflexivity. Qed.

Lemma init_session_state_run :
  init_session_state fe s =
    Reply (Ok ())
          (if bool_decide (is_Some (s !! "page")) then s
           else <["page" := "Home"]> s) [].
Proof.
  unfold init_session_state, M_bind, session_has; simpl.
  destruct (bool_decide _); reflexivity.
Qed.

Lemma sidebar_navigation_run :
  sidebar_navigation fe s =
    Reply (Ok ())
          (<["page" := default "Home" (nav fe)]>
             (<["nav" := default "Home" (nav fe)]> s))
          (emitted (sidebar_navigation fe ∅)).
Proof. reflexivity. Qed.

Lemma home_page_state :
  state (home_page fe s) = s ∨
  state (home_page fe s) = <["page" := "Analysis"]> s.
Proof.
  destruct fe as [n [file|] [|] c]; [right | left | left | left]; reflexivity.
Qed.

Lemma analysis_page_state : state (analysis_page fe s) = s.
Proof.
  unfold analysis_page, M_bind at 1 2 3 4; simpl.
  unfold getitem.
  destruct (context_descriptions !! _); reflexivity.
Qed.

Lemma help_page_run :
  help_page fe s = Reply (Ok ()) s (emitted (help_page fe ∅)).
Proof. reflexivity. Qed.

Lemma main_dispatch_run p :
  s !! "page" = Some p →
  main_dispatch fe s =
    if decide (p = "Home") then home_page fe s
    else if decide (p = "Analysis") then analysis_page fe s
    else if decide (p = "Help") then help_page fe s
    else Reply (Ok ()) s [].
Proof.
  intros Hp.
  assert (Hget : session_get "page" fe s = Reply (Ok p) s []).
  { unfold session_get. rewrite Hp. reflexivity. }
  unfold main_dispatch.
  rewrite (bind_ok _ _ _ _ _ Hget).
  destruct (decide (p = "Home")); [by destruct (home_page fe s) |].
  rewrite (bind_ok _ _ _ _ _ Hget).
  destruct (decide (p = "Analysis")); [by destruct (analysis_page fe s) |].
  rewrite (bind_ok _ _ _ _ _ Hget).
  destruct (decide (p = "Help")); [by destruct (help_page fe s) |].
  reflexivity.
Qed.

Lemma main_dispatch_page p :
  s !! "page" = Some p →
  state (main_dispatch fe s) !! "page" = Some p ∨
  state (main_dispatch fe s) !! "page" = Some "Analysis".
Proof.
  intros Hp. rewrite (main_dispatch_run p Hp).
  repeat case_decide.
  - destruct home_page_state as [-> | ->]; [by left | right].
    apply lookup_insert_eq.
  - left. by rewrite analysis_page_state.
  - left. by rewrite help_page_run.
  - by left.
Qed.
End Runs.

Lemma script_state fe s :
  state (script fe s) =
    state (main_dispatch fe
             (<["page" := default "Home" (nav fe)]>
                (<["nav" := default "Home" (nav fe)]>
                   (if bool_decide (is_Some (s !! "page")) then s
                    else <["page" := "Home"]> s)))).
Proof.
  unfold script, set_page_config, st_markdown.
  unfold M_bind at 1 2 3; cbn [emit result state emitted].
  rewrite init_session_state_run; cbn [result state emitted].
  unfold M_bind at 1. rewrite sidebar_navigation_run; cbn [result state emitted].
  unfold M_bind. by destruct (result (main_dispatch _ _)).
Qed.

Lemma offered_default options choice :
  options ≠ [] →
  offered options choice = true →
  default (hd "" options) choice ∈ options.
Proof.
  intros Hne Hoff. destruct choice as [v|]; simpl in *.
  - by apply bool_decide_eq_true in Hoff.
  - destruct options; [done | left].
Qed.

Lemma script_page fe s :
  valid_widgets fe = true →
  ∃ p, state (script fe s) !! "page" = Some p ∧ p ∈ nav_options.
Proof.
  intros [Hnav _]%andb_prop.
  apply (offered_default nav_options) in Hnav; [| done].
  simpl in Hnav. rewrite script_state.
  set (s1 := if bool_decide _ then _ else _).
  destruct (main_dispatch_page fe _ _
              (lookup_insert_eq (<["nav" := default "Home" (nav fe)]> s1)
                 "page" (default "Home" (nav fe))))
    as [-> | ->].
  - eauto.
  - eexists; split; [done |]. apply list_elem_of_In; simpl; tauto.
Qed.

(** What follows a press of "View Analysis": the execution stopped by
    [st.rerun()] leaves Analysis as the current page; the execution this
    triggers, the radio still on Home and the button released, stores the
    radio's value again. *)
Example rerun_after_press :
  let stopped := script upload_pressed (<["page" := "Home"]> ∅) in
  let again := script upload_only (state stopped) in
  result stopped = Raise RerunException ∧
  state stopped !! "page" = Some "Analysis" ∧
  result again = Ok () ∧
  state again !! "page" = Some "Home".
Proof.
  cbv zeta. split; [| split; [| split]]; vm_compute; reflexivity.
Qed.

(** * Properties of the application *)

(** ** C1: uploading a file on the Home view *)

(** C1, as stated, fails: with balance_sheet.csv uploaded on the Home view,
    the run echoes the name, waits the two seconds and ends normally, and
    the current page is still Home, not Analysis. *)
Lemma upload_alone_stays_on_home :
  let r := script upload_only (<["page" := "Home"]> ∅) in
  result r = Ok () ∧
  render main_area (el_success "File Uploaded: balance_sheet.csv") ∈ emitted r ∧
  sleep 2 ∈ emitted r ∧
  state r !! "page" = Some "Home" ∧
  state r !! "page" ≠ Some "Analysis".
Proof.
  vm_compute result. vm_compute emitted.
  repeat split; try done; apply list_elem_of_In; simpl; tauto.
Qed.

(** C1, amended: for every uploaded file the Home view shows, after its
    fixed opening part, the message "File Uploaded: <name>", the spinner,
    the two-second delay, the completion notice and the "View Analysis"
    button, in this order; nothing of the file but its name has any effect;
    the session state is left as it was unless the button is pressed, and
    then, after the delay, the current page is set to Analysis and a rerun
    is requested. *)
Theorem upload_echoes_name_and_button_sets_analysis
    (fe : widgets) (s : gmap string string) (file : UploadedFile) :
  uploaded_file fe = Some file →
  home_page fe s =
    Reply (if view_analysis fe then Raise RerunException else Ok ())
          (if view_analysis fe then <["page" := "Analysis"]> s else s)
          (home_intro ++
           [ render main_area (el_success ("File Uploaded: " +:+ name file));
             render main_area (el_spinner "Analyzing your financial document...");
             sleep 2;
             render main_area
               (el_info "Analysis complete! Navigate to the Analysis page to view results.");
             render main_area (el_button "View Analysis") ])
  ∧ ∀ fe' file',
      uploaded_file fe' = Some file' →
      name file' = name file →
      view_analysis fe' = view_analysis fe →
      home_page fe' s = home_page fe s.
Proof.
  intros Hfile.
  assert (Hrun : ∀ fe0 file0,
            uploaded_file fe0 = Some file0 →
            home_page fe0 s =
              Reply (if view_analysis fe0 then Raise RerunException else Ok ())
                    (if view_analysis fe0 then <["page" := "Analysis"]> s else s)
                    (home_intro ++
                     [ render main_area
                         (el_success ("File Uploaded: " +:+ name file0));
                       render main_area
                         (el_spinner "Analyzing your financial document...");
                       sleep 2;
                       render main_area
                         (el_info "Analysis complete! Navigate to the Analysis page to view results.");
                       render main_area (el_button "View Analysis") ])).
  { intros [n u [|] c] file0 Hu; cbn [uploaded_file] in Hu; subst u; reflexivity. }
  split; [by apply Hrun |].
  intros fe' file' Hfile' Hname Hpressed.
  rewrite (Hrun fe' file' Hfile'), (Hrun fe file Hfile), Hname, Hpressed.
  reflexivity.
Qed.

Lemma upload_echoes_name_and_button_sets_analysis_witness :
  home_page upload_only ∅ =
    Reply (Ok ()) ∅
          (home_intro ++
           [ render main_area (el_success "File Uploaded: balance_sheet.csv");
             render main_area (el_spinner "Analyzing your financial document...");
             sleep 2;
             render main_area
               (el_info "Analysis complete! Navigate to the Analysis page to view results.");
             render main_area (el_button "View Analysis") ]).
Proof.
  exact (proj1 (upload_echoes_name_and_button_sets_analysis
                  upload_only ∅ balance_sheet eq_refl)).
Defined.

(** ** C2: the navigation selector and values outside the enum *)

(** C2, as stated, fails: "Settings" is none of the three pages, and
    [setPage] stores it without any error. *)
Lemma setPage_stores_unknown_page :
  let r := setPage "Settings" default_widgets (<["page" := "Home"]> ∅) in
  ("Settings" ∉ nav_options) ∧
  result r = Ok () ∧
  state r !! "page" = Some "Settings".
Proof.
  split; [| done].
  intros Hin%list_elem_of_In. simpl in Hin.
  destruct Hin as [? | [? | [? | []]]]; discriminate.
Qed.

(** C2, amended: [setPage] succeeds on every input, inside the enum or
    outside, and stores it as the current page; there is no InvalidPage
    error.  The sidebar hands it the radio's value (which the radio has
    kept under its own key nav), and the radio offering only Home, Analysis
    and Help, that value is one of the three. *)
Theorem setPage_never_fails (x : string) (fe : widgets) (s : gmap string string) :
  offered nav_options (nav fe) = true →
  setPage x fe s = Reply (Ok ()) (<["page" := x]> s) [] ∧
  (∃ v, v ∈ nav_options ∧
        result (sidebar_navigation fe s) = Ok () ∧
        state (sidebar_navigation fe s) = state (setPage v fe (<["nav" := v]> s))).
Proof.
  intros Hnav. split; [done |].
  exists (default "Home" (nav fe)). split; [| done].
  by apply (offered_default nav_options).
Qed.

Lemma setPage_never_fails_witness :
  setPage "Settings" upload_only ∅ = Reply (Ok ()) (<["page" := "Settings"]> ∅) [].
Proof. exact (proj1 (setPage_never_fails "Settings" upload_only ∅ eq_refl)). Defined.

(** ** C5: set-then-get on the navigation state *)

(** C5: for each of the three pages x, [getPage] right after [setPage x]
    returns x; so it does after the sidebar has stored the radio's value x. *)
Theorem getPage_after_setPage (x : string) (fe : widgets) (s : gmap string string) :
  x ∈ nav_options →
  (setPage x ;;; getPage) fe s = Reply (Ok x) (<["page" := x]> s) [] ∧
  (nav fe = Some x →
   result ((sidebar_navigation ;;; getPage) fe s) = Ok x).
Proof.
  intros _. split.
  - unfold setPage, getPage, M_bind, session_set, session_get; simpl.
    by rewrite lookup_insert_eq.
  - intros Hnav. unfold M_bind. rewrite sidebar_navigation_run, Hnav; simpl.
    unfold getPage, session_get. by rewrite lookup_insert_eq.
Qed.

Lemma getPage_after_setPage_witness :
  (setPage "Analysis" ;;; getPage) default_widgets ∅ =
    Reply (Ok "Analysis") (<["page" := "Analysis"]> ∅) [].
Proof.
  apply (getPage_after_setPage "Analysis" default_widgets ∅).
  apply list_elem_of_In; simpl; tauto.
Defined.

(** ** C4: the chart renderer *)

(** X14: the chart renderer takes no input and has no failure path: it
    draws its own three categories against its own three values, sequences
    of equal length, so the plotting call is always given what it requires;
    it never raises, and the chart it returns is complete: one bar per
    category, in order, with the category's value. *)
Theorem chart_renderer_always_draws_three_bars :
  ∃ fig,
    create_mock_bar_chart = Ok fig ∧
    (bars fig).*1.*1 = ["Current Ratio"; "Quick Ratio"; "Cash Ratio"] ∧
    (bars fig).*1.*2 = [1.8; 1.2; 0.5]%float ∧
    length (bars fig).*1.*1 = length (bars fig).*1.*2 ∧
    ∀ e, create_mock_bar_chart ≠ Raise e.
Proof. eexists. repeat split; done. Qed.

(** C4: the chart of Current Ratio 1.8, Quick Ratio 1.2 and Cash Ratio 0.5
    colours each bar by the threshold rule: the third bar, below 1.0, has
    the warning colour, the first two the healthy colour. *)
Theorem bar_colors_follow_threshold :
  ∃ fig,
    create_mock_bar_chart = Ok fig ∧
    bars fig = [ ("Current Ratio", 1.8%float, healthy_color);
                 ("Quick Ratio", 1.2%float, healthy_color);
                 ("Cash Ratio", 0.5%float, warning_color) ] ∧
    Forall (λ b, b.2 = threshold_color b.1.2) (bars fig).
Proof.
  eexists. split; [reflexivity |]. split; [reflexivity |].
  repeat constructor.
Qed.

(** ** C6 and C9: the mock ratio provider *)

(** C6: [get_mock_ratios] reads nothing and changes nothing: whatever the
    widget values and the session state, it returns the same data, leaves
    the state as it is and renders nothing; it cannot fail; two calls in a
    row return equal data, with the categories, the ratios of each
    category and their values in the same order. *)
Theorem get_mock_ratios_is_constant :
  ∃ data,
    (∀ fe s, get_mock_ratios fe s = Reply (Ok data) s []) ∧
    (∀ fe s,
       (first <- get_mock_ratios ;;
        second <- get_mock_ratios ;;
        M_ret (first, second)) fe s = Reply (Ok (data, data)) s []) ∧
    data.*1 = ["Liquidity Ratios"; "Profitability Ratios"] ∧
    (λ c, c.2.*1) <$> data =
      [ ["Current Ratio"; "Quick Ratio"; "Cash Ratio"];
        ["Gross Margin"; "Net Profit Margin"; "Return on Equity (ROE)"] ] ∧
    (λ c, value <$> c.2.*2) <$> data =
      [ [1.8; 1.2; 0.5]; [35.0; 8.5; 15.2] ]%float.
Proof. eexists. repeat split. Qed.

(** C9: every ratio entry [get_mock_ratios] returns has a status that is
    one of healthy, warning, danger. *)
Theorem every_status_in_enum (fe : widgets) (s : gmap string string) :
  ∃ data,
    result (get_mock_ratios fe s) = Ok data ∧
    Forall (λ category,
              Forall (λ entry, status entry.2 ∈ ["healthy"; "warning"; "danger"])
                     category.2)
           data.
Proof.
  eexists. split; [reflexivity |].
  repeat constructor; apply list_elem_of_In; simpl; tauto.
Qed.

(** ** C7: the context mode of the Analysis view *)

(** C7: with context mode Audit the Analysis view shows exactly one notice,
    the string "Audit Mode: Highlights compliance metrics and financial
    health indicators.", so neither of the other two descriptions; and each
    of the three modes has one description, which is the one notice shown
    when that mode is selected. *)
Theorem audit_mode_shows_its_description (fe : widgets) (s : gmap string string) :
  context_mode fe = Some "Audit" →
  result (analysis_page fe s) = Ok () ∧
  infos (emitted (analysis_page fe s)) =
    ["Audit Mode: Highlights compliance metrics and financial health indicators."] ∧
  Forall (λ mode,
            ∃ text,
              context_descriptions !! mode = Some text ∧
              ∀ fe', context_mode fe' = Some mode →
                     infos (emitted (analysis_page fe' s)) = [text])
         context_options ∧
  dom context_descriptions = list_to_set context_options.
Proof.
  intros Hmode. split; [| split; [| split]].
  - destruct fe as [n u p c]; simpl in Hmode; subst c. reflexivity.
  - destruct fe as [n u p c]; simpl in Hmode; subst c. reflexivity.
  - repeat constructor; eexists; (split; [reflexivity |]);
      intros [n u p c] Hc; simpl in Hc; subst c; reflexivity.
  - unfold context_descriptions, context_options.
    rewrite !dom_insert_L, dom_empty_L. set_solver.
Qed.

Lemma audit_mode_shows_its_description_witness :
  infos (emitted (analysis_page audit_selected ∅)) =
    ["Audit Mode: Highlights compliance metrics and financial health indicators."].
Proof.
  exact (proj1 (proj2 (audit_mode_shows_its_description audit_selected ∅ eq_refl))).
Defined.

(** ** C8: the navigation state machine *)

(** C8: the current page is Home when the session starts, and in every
    session state the script can reach, by any sequence of executions with
    any choices of the viewer (a page picked in the sidebar, a file
    uploaded, the button pressed), it is one of Home, Analysis, Help. *)
Theorem current_page_stays_in_enum (n : nat) (s : gmap string string) :
  reachable n s →
  ∃ p, s !! "page" = Some p ∧ p ∈ nav_options ∧ (n = 0 → p = "Home").
Proof.
  induction 1 as [fe | n fe s _ _ Hvalid].
  - exists "Home". split; [reflexivity |].
    split; [apply list_elem_of_In; simpl; tauto | done].
  - destruct (script_page fe s Hvalid) as (p & Hp & Hin).
    exists p. split; [done |]. split; [done | discriminate].
Qed.

Lemma current_page_stays_in_enum_witness :
  ∃ p, state (script upload_pressed (state (init_session_state default_widgets ∅)))
         !! "page" = Some p ∧
       p ∈ nav_options ∧ (1 = 0 → p = "Home").
Proof.
  apply (current_page_stays_in_enum 1).
  apply reach_run; [apply reach_start | reflexivity].
Defined.

(** ** C10: dispatch on a page outside the enum *)

(** C10: when the current page is none of Home, Analysis, Help, the dispatch
    raises nothing, calls no page renderer (it renders nothing) and leaves
    the session state as it is; followed by the footer, only the footer is
    rendered. *)
Theorem dispatch_outside_enum_renders_nothing
    (fe : widgets) (s : gmap string string) (p : string) :
  s !! "page" = Some p →
  p ∉ nav_options →
  main_dispatch fe s = Reply (Ok ()) s [] ∧
  (main_dispatch ;;; footer) fe s =
    Reply (Ok ()) s [render main_area (el_markdown footer_block)].
Proof.
  intros Hp Hout.
  assert (Hrun : main_dispatch fe s = Reply (Ok ()) s []).
  { rewrite (main_dispatch_run fe s p Hp).
    repeat case_decide; subst; try done;
      exfalso; apply Hout, list_elem_of_In; simpl; tauto. }
  split; [done |].
  by rewrite (bind_ok _ _ _ _ _ _ _ Hrun).
Qed.

Lemma dispatch_outside_enum_renders_nothing_witness :
  main_dispatch default_widgets (<["page" := "Settings"]> ∅) =
    Reply (Ok ()) (<["page" := "Settings"]> ∅) [] ∧
  (main_dispatch ;;; footer) default_widgets (<["page" := "Settings"]> ∅) =
    Reply (Ok ()) (<["page" := "Settings"]> ∅)
          [render main_area (el_markdown footer_block)].
Proof.
  apply (dispatch_outside_enum_renders_nothing default_widgets _ "Settings").
  - reflexivity.
  - intros Hin%list_elem_of_In. simpl in Hin.
    destruct Hin as [? | [? | [? | []]]]; discriminate.
Defined.

(** * Further properties *)

(** ** The loops of the Analysis view *)

Lemma analysis_page_loop :
  analysis_page =
    (st_markdown analysis_header ;;;
     st_markdown context_mode_header ;;;
     mode <- st_selectbox "Choose a context mode for your analysis:" context_options
               "Different modes emphasize different aspects of the analysis" ;;
     text <- getitem context_descriptions mode ;;
     st_info text ;;;
     st_markdown key_ratios_header ;;;
     ratios <- get_mock_ratios ;;
     for_each ratios category_block ;;;
     st_markdown visualizations_header ;;;
     fig <- lift create_mock_bar_chart ;;
     st_pyplot fig ;;;
     st_markdown insights_header ;;;
     st_markdown insights_card).
Proof. reflexivity. Qed.

Lemma index_columns m j fe s :
  0 < m →
  index (column <$> seq 0 m) (j mod m) fe s = Reply (Ok (column (j mod m))) s [].
Proof.
  intros Hm. unfold index.
  rewrite list_lookup_fmap, lookup_seq_lt; [done |].
  apply Nat.mod_upper_bound. lia.
Qed.

Lemma ratio_cards_run m (f : nat → nat) rs fe s :
  0 < m →
  for_each (imap (λ i x, (f i, x)) rs) (ratio_card_block (column <$> seq 0 m)) fe s =
    Reply (Ok ()) s
      (imap (λ i x, render (column (f i mod m))
                      (el_markdown
                         (ratio_card ("ratio-" +:+ status x.2) x.1 (value x.2)
                            (description x.2)))) rs).
Proof.
  intros Hm. revert f. induction rs as [| [n d] rs IH]; intros f; [done |].
  cbn [imap for_each].
  unfold M_bind at 1.
  assert (Hcard : ratio_card_block (column <$> seq 0 m) (f 0, (n, d)) fe s =
            Reply (Ok ()) s
              [render (column (f 0 mod m))
                 (el_markdown (ratio_card ("ratio-" +:+ status d) n (value d)
                                 (description d)))]).
  { unfold ratio_card_block.
    rewrite length_fmap, length_seq.
    erewrite bind_ok by (by apply index_columns). reflexivity. }
  rewrite Hcard. cbn [result state emitted].
  specialize (IH (f ∘ S)). unfold compose in IH |- *.
  rewrite IH. reflexivity.
Qed.

Lemma category_block_run entry fe s :
  entry.2 ≠ [] →
  category_block entry fe s = Reply (Ok ()) s (category_events entry).
Proof.
  destruct entry as [category rs]. cbn [snd]. intros Hrs.
  assert (Hm : 0 < min (length rs) 3) by (destruct rs; [done | simpl; lia]).
  assert (Hcols : st_columns (min (length rs) 3) fe s =
            Reply (Ok (column <$> seq 0 (min (length rs) 3))) s
                  [render main_area (el_columns (min (length rs) 3))]).
  { unfold st_columns. destruct (decide _); [lia | reflexivity]. }
  unfold category_block.
  erewrite bind_ok by reflexivity. cbn [state result emitted].
  erewrite bind_ok by exact Hcols. cbn [state result emitted].
  unfold enumerate. rewrite (ratio_cards_run _ (λ i, i) rs fe s Hm).
  reflexivity.
Qed.

(** X1: a category with at least one ratio is rendered as its heading,
    min(n, 3) columns and one card per ratio, in the order of the
    dictionary; the i-th card carries the class "ratio-" followed by the
    status and goes to column i mod min(n, 3), so a fourth ratio wraps to
    the first column and the column index is never out of range; nothing
    fails and the session state is left as it is. *)
Theorem category_cards_wrap_over_columns
    (category : string) (rs : list (string * ratio_data))
    (fe : widgets) (s : gmap string string) :
  rs ≠ [] →
  category_block (category, rs) fe s =
    Reply (Ok ()) s
      (render main_area (el_markdown (category_heading category)) ::
       render main_area (el_columns (min (length rs) 3)) ::
       imap (λ i entry,
               render (column (i mod min (length rs) 3))
                 (el_markdown
                    (ratio_card ("ratio-" +:+ status entry.2) entry.1
                       (value entry.2) (description entry.2)))) rs).
Proof. intros Hrs. by rewrite category_block_run. Qed.

Lemma category_cards_wrap_over_columns_witness :
  cards (emitted (category_block ("Four", four_ratios) default_widgets ∅)) =
    [ (column 0, ratio_card "ratio-healthy" "A" 1.0 "a");
      (column 1, ratio_card "ratio-warning" "B" 2.0 "b");
      (column 2, ratio_card "ratio-danger" "C" 3.0 "c");
      (column 0, ratio_card "ratio-healthy" "D" 4.0 "d") ].
Proof.
  rewrite (category_cards_wrap_over_columns "Four" four_ratios default_widgets ∅)
    by discriminate.
  reflexivity.
Defined.

(** X2: the loop over the categories renders them in the order of the
    dictionary and stops at the first category without ratios: the
    categories before it are rendered in full, of the empty one only the
    heading, then [st.columns(0)] raises and nothing after it is rendered. *)
Theorem empty_category_stops_the_loop
    (before rest : list (string * list (string * ratio_data))) (category : string)
    (fe : widgets) (s : gmap string string) :
  Forall (λ entry, entry.2 ≠ []) before →
  for_each before category_block fe s =
    Reply (Ok ()) s (concat (category_events <$> before)) ∧
  ∃ msg,
    for_each (before ++ (category, []) :: rest) category_block fe s =
      Reply (Raise (StreamlitAPIException msg)) s
        (concat (category_events <$> before) ++
         [render main_area (el_markdown (category_heading category))]).
Proof.
  intros Hbefore. split.
  - induction Hbefore as [| entry before Hentry _ IH]; [done |].
    cbn [for_each fmap list_fmap concat].
    erewrite bind_ok by (by apply category_block_run).
    rewrite IH. reflexivity.
  - eexists. induction Hbefore as [| entry before Hentry _ IH].
    + reflexivity.
    + cbn [for_each fmap list_fmap concat app].
      erewrite bind_ok by (by apply category_block_run).
      rewrite IH. cbn [result state emitted]. by rewrite app_assoc.
Qed.

Lemma empty_category_stops_the_loop_witness :
  ∃ msg,
    for_each [("Four", four_ratios); ("None", []); ("Four", four_ratios)]
      category_block default_widgets ∅ =
    Reply (Raise (StreamlitAPIException msg)) ∅
      (category_events ("Four", four_ratios) ++
       [render main_area (el_markdown (category_heading "None"))]).
Proof.
  destruct (empty_category_stops_the_loop
              [("Four", four_ratios)] [("Four", four_ratios)] "None" default_widgets ∅)
    as [_ Hrun].
  - repeat constructor; discriminate.
  - exact Hrun.
Defined.

(** ** One execution of the script *)

Lemma home_page_run fe s :
  home_page fe s =
    Reply (result (home_page fe ∅))
          (if bool_decide (is_Some (uploaded_file fe)) && view_analysis fe
           then <["page" := "Analysis"]> s else s)
          (emitted (home_page fe ∅)).
Proof. destruct fe as [n [file|] [|] c]; reflexivity. Qed.

Lemma analysis_page_cases fe s :
  (∃ text,
     context_descriptions !! default "Investor" (context_mode fe) = Some text ∧
     analysis_page fe s =
       Reply (Ok ()) s
         (emitted (analysis_page default_widgets ∅)
          ≫= λ e, match e with
                  | render c (el_selectbox l o h _) =>
                      [render c (el_selectbox l o h (default "Investor" (context_mode fe)))]
                  | render c (el_info _) => [render c (el_info text)]
                  | _ => [e]
                  end)) ∨
  (context_descriptions !! default "Investor" (context_mode fe) = None ∧
   analysis_page fe s =
     Reply (Raise (KeyError (default "Investor" (context_mode fe)))) s
       [ render main_area (el_markdown analysis_header);
         render main_area (el_markdown context_mode_header);
         render main_area
           (el_selectbox "Choose a context mode for your analysis:" context_options
              "Different modes emphasize different aspects of the analysis"
              (default "Investor" (context_mode fe))) ]).
Proof.
  destruct (context_descriptions !! default "Investor" (context_mode fe))
    as [text|] eqn:E; [left; exists text | right]; (split; [done |]);
    unfold analysis_page, M_bind at 1 2 3 4; simpl;
    unfold getitem; rewrite E; reflexivity.
Qed.

Lemma analysis_page_run fe s :
  analysis_page fe s =
    Reply (result (analysis_page fe ∅)) s (emitted (analysis_page fe ∅)).
Proof.
  destruct (analysis_page_cases fe s) as [(text & E & ->) | [E ->]];
    destruct (analysis_page_cases fe ∅) as [(text' & E' & ->) | [E' ->]];
    rewrite E in E'; simplify_eq; reflexivity.
Qed.

Lemma view_run p fe s :
  view p fe s =
    Reply (result (view p fe ∅))
          (if bool_decide (p = "Home") && bool_decide (is_Some (uploaded_file fe))
              && view_analysis fe
           then <["page" := "Analysis"]> s else s)
          (emitted (view p fe ∅)).
Proof.
  unfold view. case_bool_decide as Hp.
  - rewrite decide_True by done. apply home_page_run.
  - rewrite decide_False by done. simpl.
    repeat case_decide; [apply analysis_page_run | apply help_page_run | done].
Qed.

Lemma main_dispatch_view p fe s :
  s !! "page" = Some p → main_dispatch fe s = view p fe s.
Proof.
  intros Hp. rewrite (main_dispatch_run fe s p Hp). unfold view.
  repeat case_decide; reflexivity.
Qed.

Lemma script_dispatch fe s :
  script fe s =
    let r := view (shown_page fe) fe
               (<["page" := shown_page fe]>
                  (<["nav" := shown_page fe]>
                     (if bool_decide (is_Some (s !! "page")) then s
                      else <["page" := "Home"]> s))) in
    Reply (result r) (state r)
          (preamble fe ++ emitted r ++
           match result r with
           | Ok _ => [render main_area (el_markdown footer_block)]
           | Raise _ => []
           end).
Proof.
  unfold script.
  erewrite bind_ok by reflexivity. cbn [result state emitted].
  erewrite bind_ok by reflexivity. cbn [result state emitted].
  erewrite bind_ok by apply init_session_state_run. cbn [result state emitted].
  erewrite bind_ok by apply sidebar_navigation_run. cbn [result state emitted].
  unfold M_bind.
  rewrite (main_dispatch_view (shown_page fe)) by apply lookup_insert_eq.
  fold (shown_page fe). unfold preamble.
  destruct (result (view _ _ _)) as [[] |];
    cbn [result state emitted footer st_markdown emit];
    rewrite <- ?app_assoc, ?app_nil_r; reflexivity.
Qed.

Lemma script_run fe s :
  script fe s =
    Reply (result (script fe ∅))
          (<["page" := if rerun_requested fe then "Analysis" else shown_page fe]>
             (<["nav" := shown_page fe]> s))
          (emitted (script fe ∅)).
Proof.
  rewrite (script_dispatch fe s), (script_dispatch fe ∅). cbn zeta.
  rewrite (view_run _ fe (<[_ := _]> (<[_ := _]>
             (if bool_decide (is_Some (s !! _)) then _ else _)))).
  rewrite (view_run _ fe (<[_ := _]> (<[_ := _]>
             (if bool_decide (is_Some (∅ !! _)) then _ else _)))).
  cbn [result state emitted]. f_equal.
  assert (Hinit : <["page" := shown_page fe]>
                    (<["nav" := shown_page fe]>
                       (if bool_decide (is_Some (s !! "page")) then s
                        else <["page" := "Home"]> s)) =
                  <["page" := shown_page fe]> (<["nav" := shown_page fe]> s)).
  { case_bool_decide; [done |].
    by rewrite (insert_insert_ne _ "nav" "page"), insert_insert_eq. }
  rewrite Hinit. unfold rerun_requested.
  destruct (_ && _ && _); [by rewrite insert_insert_eq | done].
Qed.

(** X3: what an execution renders, and whether it ends normally, depends on
    the widget values alone: the session state left by earlier executions,
    so also a page stored there by the "View Analysis" button, has no
    influence on it. *)
Theorem script_renders_from_widgets_alone
    (fe : widgets) (s s' : gmap string string) :
  result (script fe s) = result (script fe s') ∧
  emitted (script fe s) = emitted (script fe s').
Proof. by rewrite (script_run fe s), (script_run fe s'). Qed.

(** X4: an execution writes the session state under the keys page and nav
    and under no other: the state it leaves is the state it found with nav
    set to the radio's value and page set to Analysis when the run reached
    [st.rerun()] (Home shown, a file uploaded, the button pressed), and to
    the radio's value otherwise. *)
Theorem script_stores_only_page_and_nav (fe : widgets) (s : gmap string string) :
  state (script fe s) =
    <["page" := if rerun_requested fe then "Analysis" else shown_page fe]>
      (<["nav" := shown_page fe]> s) ∧
  ∀ key, key ≠ "page" → key ≠ "nav" → state (script fe s) !! key = s !! key.
Proof.
  rewrite script_run. cbn [state]. split; [done |].
  intros key Hpage Hnav. by rewrite !lookup_insert_ne.
Qed.

Lemma home_page_result fe s :
  result (home_page fe s) =
    if bool_decide (is_Some (uploaded_file fe)) && view_analysis fe
    then Raise RerunException else Ok ().
Proof. destruct fe as [n [file|] [|] c]; reflexivity. Qed.

Lemma offered_context_cases c :
  offered context_options c = true →
  c = None ∨ c = Some "Investor" ∨ c = Some "Board" ∨ c = Some "Audit".
Proof.
  destruct c as [m|]; [| by left]. intros Hm%bool_decide_eq_true.
  apply list_elem_of_In in Hm. simpl in Hm. right.
  destruct Hm as [<- | [<- | [<- | []]]]; tauto.
Qed.

Lemma analysis_page_result fe s :
  offered context_options (context_mode fe) = true →
  result (analysis_page fe s) = Ok ().
Proof.
  intros Hc. rewrite analysis_page_run. cbn [result].
  destruct fe as [n u p c]. cbn [context_mode] in Hc.
  destruct (offered_context_cases c Hc) as [-> | [-> | [-> | ->]]]; reflexivity.
Qed.

Lemma view_result fe s p :
  offered context_options (context_mode fe) = true →
  result (view p fe s) =
    if bool_decide (p = "Home") && bool_decide (is_Some (uploaded_file fe))
       && view_analysis fe
    then Raise RerunException else Ok ().
Proof.
  intros Hc. unfold view. case_bool_decide.
  - rewrite decide_True by done. apply home_page_result.
  - rewrite decide_False by done. simpl.
    repeat case_decide; [by apply analysis_page_result | done | done].
Qed.

(** X5: with a context mode the selectbox offers, an execution raises no
    error, whatever session state it starts from (an empty one included):
    it either runs to its end or is stopped by [st.rerun()], and it is
    stopped exactly when Home is shown, a file is uploaded and "View
    Analysis" is pressed. *)
Theorem script_stops_only_for_rerun (fe : widgets) (s : gmap string string) :
  offered context_options (context_mode fe) = true →
  result (script fe s) =
    if rerun_requested fe then Raise RerunException else Ok ().
Proof.
  intros Hc. rewrite script_dispatch. cbn zeta. cbn [result].
  by rewrite view_result.
Qed.

Lemma script_stops_only_for_rerun_witness :
  result (script upload_pressed ∅) = Raise RerunException.
Proof. exact (script_stops_only_for_rerun upload_pressed ∅ eq_refl). Defined.

Lemma pages_shown_app tr tr' :
  pages_shown (tr ++ tr') = (pages_shown tr ++ pages_shown tr')%list.
Proof. apply omap_app. Qed.

Lemma delays_app tr tr' : delays (tr ++ tr') = (delays tr ++ delays tr')%list.
Proof. apply omap_app. Qed.

Lemma preamble_quiet fe : pages_shown (preamble fe) = [] ∧ delays (preamble fe) = [].
Proof. destruct fe as [[v|] u p c]; split; reflexivity. Qed.

Lemma footer_quiet {A} (o : outcome A) :
  let tr := match o with
            | Ok _ => [render main_area (el_markdown footer_block)]
            | Raise _ => []
            end in
  pages_shown tr = [] ∧ delays tr = [].
Proof. destruct o; split; reflexivity. Qed.

Lemma analysis_page_quiet fe s :
  pages_shown (emitted (analysis_page fe s)) = ["Analysis"] ∧
  delays (emitted (analysis_page fe s)) = [].
Proof.
  destruct (analysis_page_cases fe s) as [(text & _ & ->) | [_ ->]];
    split; reflexivity.
Qed.

Lemma view_pages_shown p fe s :
  pages_shown (emitted (view p fe s)) =
    if bool_decide (p ∈ nav_options) then [p] else [].
Proof.
  unfold view.
  destruct (decide (p = "Home")) as [-> | Hhome].
  { destruct fe as [n [file|] [|] c]; reflexivity. }
  destruct (decide (p = "Analysis")) as [-> | Hanalysis].
  { rewrite (proj1 (analysis_page_quiet fe s)). reflexivity. }
  destruct (decide (p = "Help")) as [-> | Hhelp]; [reflexivity |].
  rewrite bool_decide_eq_false_2; [reflexivity |].
  intros Hin%list_elem_of_In. simpl in Hin.
  destruct Hin as [? | [? | [? | []]]]; congruence.
Qed.

Lemma view_delays p fe s :
  delays (emitted (view p fe s)) =
    if bool_decide (p = "Home") && bool_decide (is_Some (uploaded_file fe))
    then [2] else [].
Proof.
  unfold view.
  destruct (decide (p = "Home")) as [-> | Hhome].
  { destruct fe as [n [file|] [|] c]; reflexivity. }
  rewrite (bool_decide_eq_false_2 (p = "Home")) by done. cbn [andb].
  destruct (decide (p = "Analysis")) as [-> | Hanalysis].
  { apply (proj2 (analysis_page_quiet fe s)). }
  destruct (decide (p = "Help")) as [-> | Hhelp]; reflexivity.
Qed.

(** X6: an execution renders the header of exactly one page, the page the
    radio stands on (Home before any choice); were the radio's value none
    of Home, Analysis, Help, no page would be rendered. *)
Theorem script_shows_the_radio_page (fe : widgets) (s : gmap string string) :
  pages_shown (emitted (script fe s)) =
    if bool_decide (shown_page fe ∈ nav_options) then [shown_page fe] else [].
Proof.
  rewrite script_dispatch. cbn zeta. cbn [emitted].
  rewrite !pages_shown_app, view_pages_shown.
  rewrite (proj1 (preamble_quiet fe)), (proj1 (footer_quiet _)).
  by rewrite app_nil_r.
Qed.

(** X7: an execution waits, for two seconds and once, exactly when Home is
    shown with a file uploaded, so again on every execution for as long as
    the file stays uploaded, the button pressed or not; no other view
    waits. *)
Theorem script_waits_only_on_home_with_upload
    (fe : widgets) (s : gmap string string) :
  delays (emitted (script fe s)) =
    if bool_decide (shown_page fe = "Home") &&
       bool_decide (is_Some (uploaded_file fe))
    then [2] else [].
Proof.
  rewrite script_dispatch. cbn zeta. cbn [emitted].
  rewrite !delays_app, view_delays.
  rewrite (proj2 (preamble_quiet fe)), (proj2 (footer_quiet _)).
  by rewrite app_nil_r.
Qed.

(** ** The views *)

(** X8: without an uploaded file the Home view renders, after its opening
    part, only the "Drag and drop" box: no message, no delay, no button;
    it ends normally and leaves the session state as it is, so a press
    recorded for the button has no effect. *)
Theorem home_page_without_file (fe : widgets) (s : gmap string string) :
  uploaded_file fe = None →
  home_page fe s =
    Reply (Ok ()) s (home_intro ++ [render main_area (el_markdown drop_zone)]).
Proof.
  intros Hfile. destruct fe as [n u p c]. cbn [uploaded_file] in Hfile.
  subst u. reflexivity.
Qed.

Lemma home_page_without_file_witness :
  home_page (mkWidgets (Some "Home") None true None) ∅ =
    Reply (Ok ()) ∅ (home_intro ++ [render main_area (el_markdown drop_zone)]).
Proof.
  exact (home_page_without_file (mkWidgets (Some "Home") None true None) ∅ eq_refl).
Defined.

(** X9: with a context mode the dictionary of descriptions does not have,
    the Analysis view raises KeyError for that mode right after the
    selectbox: the two headers and the selectbox are rendered, no notice, no
    ratio card and no chart are, and the session state is left as it is. *)
Theorem analysis_page_unknown_mode
    (fe : widgets) (s : gmap string string) (mode : string) :
  context_mode fe = Some mode →
  mode ∉ context_options →
  analysis_page fe s =
    Reply (Raise (KeyError mode)) s
      [ render main_area (el_markdown analysis_header);
        render main_area (el_markdown context_mode_header);
        render main_area
          (el_selectbox "Choose a context mode for your analysis:" context_options
             "Different modes emphasize different aspects of the analysis" mode) ].
Proof.
  intros Hmode Hout.
  destruct (analysis_page_cases fe s) as [(text & E & _) | [_ ->]];
    rewrite Hmode in *; cbn [default] in *; [| done].
  exfalso. apply Hout.
  apply (elem_of_dom_2 (D := gset string)) in E. revert E.
  unfold context_descriptions, context_options.
  rewrite !dom_insert_L, dom_empty_L. set_solver.
Qed.

Lemma analysis_page_unknown_mode_witness :
  result (analysis_page unknown_mode ∅) = Raise (KeyError "Lender").
Proof.
  rewrite (analysis_page_unknown_mode unknown_mode ∅ "Lender" eq_refl); [done |].
  intros Hin%list_elem_of_In. simpl in Hin.
  destruct Hin as [? | [? | [? | []]]]; discriminate.
Defined.

(** X10: for every context mode the selectbox offers, and whatever file is
    uploaded, the Analysis view ends normally and shows one card for every
    ratio [get_mock_ratios] returns, category by category in the provider's
    order, with the ratio's own name, value and description, the class
    "ratio-" followed by its status, in column i mod min(n, 3) for the i-th
    of the n ratios of its category; and it shows one chart, the one
    [create_mock_bar_chart] returns. *)
Theorem analysis_page_shows_every_ratio (fe : widgets) (s : gmap string string) :
  offered context_options (context_mode fe) = true →
  ∃ data fig,
    result (get_mock_ratios fe s) = Ok data ∧
    create_mock_bar_chart = Ok fig ∧
    result (analysis_page fe s) = Ok () ∧
    cards (emitted (analysis_page fe s)) =
      concat ((λ category,
                 imap (λ i entry,
                         (column (i mod min (length category.2) 3),
                          ratio_card ("ratio-" +:+ status entry.2) entry.1
                            (value entry.2) (description entry.2)))
                      category.2) <$> data) ∧
    charts (emitted (analysis_page fe s)) = [fig].
Proof.
  intros Hc. do 2 eexists.
  split; [reflexivity |]. split; [reflexivity |].
  split; [by apply analysis_page_result |].
  destruct (analysis_page_cases fe s) as [(text & _ & ->) | [E Hrun]].
  - split; reflexivity.
  - exfalso. destruct fe as [n u p c]. cbn [context_mode] in *.
    destruct (offered_context_cases c Hc) as [-> | [-> | [-> | ->]]]; discriminate E.
Qed.

Lemma analysis_page_shows_every_ratio_witness :
  ∃ data fig,
    result (get_mock_ratios audit_selected ∅) = Ok data ∧
    create_mock_bar_chart = Ok fig ∧
    result (analysis_page audit_selected ∅) = Ok () ∧
    cards (emitted (analysis_page audit_selected ∅)) =
      concat ((λ category,
                 imap (λ i entry,
                         (column (i mod min (length category.2) 3),
                          ratio_card ("ratio-" +:+ status entry.2) entry.1
                            (value entry.2) (description entry.2)))
                      category.2) <$> data) ∧
    charts (emitted (analysis_page audit_selected ∅)) = [fig].
Proof. exact (analysis_page_shows_every_ratio audit_selected ∅ eq_refl). Defined.

(** X11: the chart and the cards agree: the bars of
    [create_mock_bar_chart] are, in order, the ratios of the first category
    [get_mock_ratios] returns (the liquidity ratios), each bar with the
    ratio's name and value and with the border colour the style sheet gives
    the class "ratio-" followed by the ratio's status. *)
Theorem chart_matches_liquidity_ratios (fe : widgets) (s : gmap string string) :
  ∃ data fig liquidity,
    result (get_mock_ratios fe s) = Ok data ∧
    create_mock_bar_chart = Ok fig ∧
    data !! 0 = Some ("Liquidity Ratios", liquidity) ∧
    Forall2 (λ bar entry,
               bar.1.1 = entry.1 ∧
               bar.1.2 = value entry.2 ∧
               class_color ("ratio-" +:+ status entry.2) = Some bar.2)
            (bars fig) liquidity.
Proof.
  do 3 eexists. repeat (split; [reflexivity |]).
  repeat constructor.
Qed.

(** ** The session state *)

(** X12: the initialisation of the session writes the key page and no
    other, and only when there is no page yet: the state it leaves is the
    state it found with page set to the page found there, or to Home when
    there was none.  So every entry it finds is kept, under every other key
    the state is as before, a page set earlier is not reset to Home, and
    done twice it changes nothing the second time; it never fails and
    renders nothing. *)
Theorem init_session_state_keeps_entries (fe : widgets) (s : gmap string string) :
  ∃ s',
    init_session_state fe s = Reply (Ok ()) s' [] ∧
    s' = <["page" := default "Home" (s !! "page")]> s ∧
    (is_Some (s !! "page") → s' = s) ∧
    (∀ key, key ≠ "page" → s' !! key = s !! key) ∧
    s ⊆ s' ∧
    s' !! "page" = Some (default "Home" (s !! "page")) ∧
    init_session_state fe s' = Reply (Ok ()) s' [].
Proof.
  rewrite init_session_state_run. eexists. split; [reflexivity |].
  case_bool_decide as Hpage.
  - destruct Hpage as [p Hp]. rewrite Hp. cbn [default].
    split; [by rewrite insert_id |]. split; [done |]. split; [done |].
    split; [done |]. split; [done |].
    rewrite init_session_state_run, bool_decide_eq_true_2; [done | by eexists].
  - apply eq_None_not_Some in Hpage. rewrite Hpage. cbn [default].
    split; [done |]. split; [by intros [p Hp] |].
    split; [by intros key Hkey; rewrite lookup_insert_ne |].
    split; [by apply insert_subseteq |].
    split; [by rewrite lookup_insert_eq |].
    rewrite init_session_state_run, bool_decide_eq_true_2; [done |].
    rewrite lookup_insert_eq. by eexists.
Qed.

Lemma view_never_attribute_error p fe s attr :
  result (view p fe s) ≠ Raise (AttributeError attr).
Proof.
  unfold view. repeat case_decide.
  - rewrite home_page_result. by destruct (_ && _).
  - by destruct (analysis_page_cases fe s) as [(text & _ & ->) | [_ ->]].
  - by rewrite help_page_run.
  - done.
Qed.

(** X13: the dispatch raises AttributeError exactly when the session state
    has no page; it then renders nothing and leaves the state as it is.
    With a page stored, whatever its value, no AttributeError is raised. *)
Theorem dispatch_needs_a_page (fe : widgets) (s : gmap string string) :
  (s !! "page" = None ∧
   main_dispatch fe s = Reply (Raise (AttributeError "page")) s []) ∨
  (is_Some (s !! "page") ∧
   ∀ attr, result (main_dispatch fe s) ≠ Raise (AttributeError attr)).
Proof.
  destruct (s !! "page") as [p|] eqn:Hp.
  - right. split; [by eexists |]. intros attr.
    rewrite (main_dispatch_view p fe s Hp). apply view_never_attribute_error.
  - left. split; [done |].
    unfold main_dispatch, M_bind, session_get. rewrite Hp. reflexivity.
Qed.
